(** * RADD fitting-configuration core: a shallow embedding

    Embeds the bookkeeping methods of [RADDCore] (src/radd/CORE.py) and the
    helper [extract_popt_fitinfo] (src/radd/tools/utils.py), and states the
    properties of the specification over them.

    Python objects are embedded as follows.
    - Exceptions are values of [exn]; a call yields [res A].
    - Methods of [RADDCore] are state transformers on [Model] that keep the
      state reached when an exception is raised (attribute assignments made
      before a [raise] stay visible, as in Python).
    - A [dict] whose iteration order is observable is an association list;
      a [dict] used only through lookups is a [gmap].
    - numpy integers are 64-bit two's complement; Python integers are [Z].
    - binary64 is embedded exactly where the code computes with it on
      integers ([Binary64]); array payloads are opaque [float64] values. *)

From Stdlib Require Import ZArith String List Lia.
From stdpp Require Import gmap strings list sorting pretty.

Local Open Scope Z_scope.

(** ** Exceptions and results *)

(** [ConfigurationError] is the exception type named by the specification;
    no statement of the source raises it.  The others are the built-in
    exceptions that the embedded statements can raise. *)
Inductive exn :=
  | ValueError | KeyError | IndexError | TypeError | NameError
  | AttributeError | ZeroDivisionError | OverflowError | RecursionError
  | ConfigurationError.

Inductive res (A : Type) :=
  | Ok (a : A)
  | Raise (e : exn).
Arguments Ok {A} a.
Arguments Raise {A} e.

Definition res_bind {A B} (r : res A) (k : A → res B) : res B :=
  match r with Ok a => k a | Raise e => Raise e end.

Global Instance res_ret : MRet res := λ A a, Ok a.
Global Instance res_mbind : MBind res := λ A B k r, res_bind r k.

Definition raises {A} (r : res A) : Prop :=
  match r with Ok _ => False | Raise _ => True end.

(** [[f(x) for x in xs]]: evaluation left to right, the first exception
    aborts the comprehension. *)
Fixpoint res_map {A B} (f : A → res B) (xs : list A) : res (list B) :=
  match xs with
  | [] => Ok []
  | x :: r => res_bind (f x) (λ y, res_bind (res_map f r) (λ ys, Ok (y :: ys)))
  end.

(** ** Python sequences *)

(** [l[i]] on a Python list: negative indices count from the end, anything
    outside [-len, len) raises [IndexError]. *)
Definition py_index {A} (l : list A) (i : Z) : res A :=
  let n := Z.of_nat (length l) in
  let j := if i <? 0 then i + n else i in
  if (0 <=? j) && (j <? n)
  then match l !! Z.to_nat j with Some x => Ok x | None => Raise IndexError end
  else Raise IndexError.

(** [sep.join(parts)] *)
Fixpoint join (sep : string) (parts : list string) : string :=
  match parts with
  | [] => ""
  | [s] => s
  | s :: r => s +:+ sep +:+ join sep r
  end.

(** [pandas.Series.unique]: distinct values in order of first appearance. *)
Fixpoint unique_from `{EqDecision A} (seen : list A) (xs : list A) : list A :=
  match xs with
  | [] => []
  | x :: r =>
      if decide (x ∈ seen) then unique_from seen r
      else x :: unique_from (x :: seen) r
  end.
Definition unique `{EqDecision A} (xs : list A) : list A := unique_from [] xs.

(** [itertools.product] applied to the unpacked list [levels]: the last
    factor varies fastest. *)
Fixpoint product {A} (levels : list (list A)) : list (list A) :=
  match levels with
  | [] => [[]]
  | l :: r => x ← l; (λ t, x :: t) <$> product r
  end.

(** ** numpy integers *)

(** Two's-complement reduction to the int64 range. *)
Definition wrap64 (z : Z) : Z := (z + 2 ^ 63) mod 2 ^ 64 - 2 ^ 63.

(** [np.cumprod] on an int64 vector. *)
Fixpoint cumprod_from (acc : Z) (xs : list Z) : list Z :=
  match xs with
  | [] => []
  | x :: r => let p := wrap64 (acc * x) in p :: cumprod_from p r
  end.
Definition cumprod (xs : list Z) : list Z := cumprod_from 1 xs.

(** The mathematical product of a list of integers. *)
Definition prodZ (xs : list Z) : Z := foldr Z.mul 1 xs.

(** ** binary64 arithmetic on integers *)

Module Binary64.

(** Nearest integer to [n / d], ties to even ([0 <= n], [0 < d]). *)
Definition rne (n d : Z) : Z :=
  let q := n / d in
  match 2 * (n mod d) ?= d with
  | Lt => q
  | Gt => q + 1
  | Eq => if Z.even q then q else q + 1
  end.

(** [floor (log2 (n / d))] for [0 < n], [0 < d]. *)
Definition ilog2_ratio (n d : Z) : Z :=
  let l := Z.log2 n - Z.log2 d in
  let fits := if 0 <=? l then d * 2 ^ l <=? n else d <=? n * 2 ^ (- l) in
  if fits then l else l - 1.

(** The binary64 number nearest to [n / d] ([0 <= n], [0 < d]) as a pair
    [(m, e)] standing for [m * 2^e]: 53 bits of precision, exponent not
    below that of the subnormals. *)
Definition round (n d : Z) : Z * Z :=
  let e := Z.max (ilog2_ratio n d - 52) (- 1074) in
  let m := if 0 <=? e then rne n (d * 2 ^ e) else rne (n * 2 ^ (- e)) d in
  (m, e).

(** Beyond the largest finite binary64 number. *)
Definition overflows (x : Z * Z) : bool :=
  (0 <=? x.2) && (2 ^ 1024 <=? x.1 * 2 ^ x.2).

(** [int(x)] for a non-negative [x]: truncation. *)
Definition trunc (x : Z * Z) : Z :=
  if 0 <=? x.2 then x.1 * 2 ^ x.2 else x.1 / 2 ^ (- x.2).

(** [int(.5 * n)] for a Python integer [n]: [n] is converted to binary64,
    halved (exact: only the exponent changes) and truncated towards zero. *)
Definition int_half (n : Z) : res Z :=
  let x := round (Z.abs n) 1 in
  if overflows x then Raise OverflowError
  else Ok (Z.sgn n * trunc (x.1, x.2 - 1)).

(** [int(a / b)] for Python integers under [from __future__ import
    division]: the quotient is the correctly rounded binary64 number. *)
Definition int_truediv (a b : Z) : res Z :=
  if b =? 0 then Raise ZeroDivisionError
  else
    let x := round (Z.abs a) (Z.abs b) in
    if overflows x then Raise OverflowError
    else Ok (Z.sgn a * Z.sgn b * trunc x).

End Binary64.

(** ** Python dictionaries with observable order *)

(** Insertion-ordered dictionary with string keys. *)
Abbreviation dict V := (list (string * V)).

Fixpoint dict_get {V} (d : dict V) (k : string) : option V :=
  match d with
  | [] => None
  | (k', v) :: r => if decide (k = k') then Some v else dict_get r k
  end.

(** [d[k] = v]: an existing key keeps its place. *)
Fixpoint dict_set {V} (k : string) (v : V) (d : dict V) : dict V :=
  match d with
  | [] => [(k, v)]
  | (k', v') :: r =>
      if decide (k = k') then (k, v) :: r else (k', v') :: dict_set k v r
  end.

(** [list(d)] and [listvalues(d)] *)
Definition keys {V} (d : dict V) : list string := d.*1.
Definition listvalues {V} (d : dict V) : list V := d.*2.

(** ** Trial data *)

(** A scalar of the trial table that identifies a subject or a level. *)
Inductive cell :=
  | CInt (z : Z)
  | CStr (s : string).

Global Instance cell_eq_dec : EqDecision cell.
Proof. solve_decision. Defined.

(** [str(x)] *)
Definition str (c : cell) : string :=
  match c with
  | CInt z => pretty z
  | CStr s => s
  end.

(** A column of the trial table that can serve as a condition factor holds
    integer codes or strings. *)
Inductive column :=
  | IntCol (xs : list Z)
  | StrCol (xs : list string).

(** The trial table: [nrows] trials, named columns. *)
Record DataFrame := {
  nrows : nat;
  columns : dict column;
}.

(** [data[c]] *)
Definition df_get (df : DataFrame) (c : string) : res column :=
  match dict_get (columns df) c with
  | Some col => Ok col
  | None => Raise KeyError
  end.

(** [data[c] = s] for a string scalar [s]: every row gets [s]. *)
Definition df_set_scalar (c s : string) (df : DataFrame) : DataFrame :=
  {| nrows := nrows df;
     columns := dict_set c (StrCol (replicate (nrows df) s)) (columns df) |}.

(** [data[c].unique()] *)
Definition col_unique (col : column) : column :=
  match col with
  | IntCol xs => IntCol (unique xs)
  | StrCol xs => StrCol (unique xs)
  end.

(** [np.sort]: integers by value, strings by code points. *)
Definition np_sort (col : column) : column :=
  match col with
  | IntCol xs => IntCol (merge_sort Z.le xs)
  | StrCol xs => StrCol (merge_sort String.le xs)
  end.

Definition cells (col : column) : list cell :=
  match col with
  | IntCol xs => CInt <$> xs
  | StrCol xs => CStr <$> xs
  end.

(** [np.array([str(lvl) for lvl in levels])] *)
Definition str_levels (levels : column) : list string := str <$> cells levels.

(** ** Dependency specifications *)

(** The value of one [depends_on] entry: a factor name, or a list of them
    ([isinstance(conds, list)]). *)
Inductive dep :=
  | Single (c : string)
  | Multi (cs : list string).

Definition dep_factors (d : dep) : list string :=
  match d with
  | Single c => [c]
  | Multi cs => cs
  end.

(** [np.hstack]: fails on an empty sequence of arrays. *)
Definition np_hstack (vals : list dep) : res (list string) :=
  match vals with
  | [] => Raise ValueError
  | _ => Ok (vals ≫= dep_factors)
  end.

(** [np.unique(a).tolist()] on strings: the sorted distinct values. *)
Definition np_unique (xs : list string) : list string :=
  merge_sort String.le (unique xs).

(** [{c: lvls for c, lvls in zip(conds, clevels)}] *)
Definition dict_of_zip (ks : list string) (vs : list (list string))
  : gmap string (list string) :=
  foldl (λ m kv, <[kv.1 := kv.2]> m) ∅ (zip ks vs).

(** [a[-1]] on a vector. *)
Definition last_item (xs : list Z) : res Z :=
  match last xs with
  | Some x => Ok x
  | None => Raise IndexError
  end.

(** ** Parameter-to-condition map *)

(** The body of the loop of [__format_pcmap__] for one entry [(p, conds)]
    of [depends_on]. *)
Definition clmap_get (clmap : gmap string (list string)) (c : string)
  : res (list string) :=
  match clmap !! c with
  | Some lvls => Ok lvls
  | None => Raise KeyError
  end.

Definition level_tags (clmap : gmap string (list string)) (conds : dep)
  : res (list string) :=
  match conds with
  | Multi cs =>
      res_bind (res_map (clmap_get clmap) cs) (λ levels,
        let level_data := product levels in
        Ok ((λ lvls, join "_" lvls) <$> level_data))
  | Single c => clmap_get clmap c
  end.

(** ['{}_{}'.format(p, clvl)] *)
Definition param_name (p clvl : string) : string := p +:+ "_" +:+ clvl.

Fixpoint pcmap_loop (clmap : gmap string (list string))
    (items : dict dep) (pcmap : gmap string (list string))
  : res (gmap string (list string)) :=
  match items with
  | [] => Ok pcmap
  | (p, conds) :: r =>
      res_bind (level_tags clmap conds) (λ clevels,
        let param_clevels := param_name p <$> clevels in
        pcmap_loop clmap r (<[p := param_clevels]> pcmap))
  end.

(** ** Values held by the model *)

(** A binary64 payload: the embedded methods move these around without
    computing on them. *)
Inductive float64 :=
  | Fnan
  | Finf (neg : bool)
  | Ffin (m e : Z).

(** The binary64 number written as the decimal literal [n / d]. *)
Definition float_lit (n d : Z) : float64 :=
  let x := Binary64.round n d in Ffin x.1 x.2.

(** An n-dimensional array of binary64 in row-major order. *)
Record ndarray := {
  shape : list nat;
  items : list float64;
}.

(** A two-dimensional array ([DataFrame.values]): rows of [ncols] entries. *)
Record matrix := {
  rows : list (list float64);
  ncols : nat;
}.

(** A pandas table produced by the data handler: column labels and rows. *)
Record Frame := {
  labels : list string;
  records : list (list cell * list float64);
}.

(** [ssd_info]: the SSD matrix, the number of delays, the number of stop
    trials, the stop trials per delay and the index grid. *)
Record SsdInfo := {
  ssd_matrix : matrix;
  nssd : Z;
  nss : Z;
  nss_per_ssd : Z;
  ssd_ix : list (list Z);
}.

(** The Python values stored in [fitparams] and [basinparams] or passed as
    keyword arguments. *)
Inductive fval :=
  | VNone
  | VBool (b : bool)
  | VInt (z : Z)
  | VFloat (x : float64)
  | VStr (s : string)
  | VCell (c : cell)
  | VVec (v : list float64)
  | VArr (a : ndarray)
  | VMap (m : gmap string (list string))
  | VDeps (d : dict dep)
  | VInits (i : dict float64)
  | VSsdInfo (i : SsdInfo).

(** [DataHandler]: the attributes of the handler that [RADDCore] reads or
    assigns. *)
Record Handler := {
  h_ssd_method : fval;
  h_pcmap : gmap string (list string);
  h_observedDF : Frame;
  h_observedErr : Frame;
  h_observed : list ndarray;
  h_observed_flat : list ndarray;
  h_yhatdf : Frame;
  h_fitdf : Frame;
  h_poptdf : Frame;
  h_wtsDF : Frame;
  h_ssdDF : option Frame;
  h_cond_wts : list ndarray;
  h_flat_wts : list ndarray;
}.

Definition handler_set_pcmap (pc : gmap string (list string)) (h : Handler)
  : Handler :=
  {| h_ssd_method := h_ssd_method h; h_pcmap := pc;
     h_observedDF := h_observedDF h; h_observedErr := h_observedErr h;
     h_observed := h_observed h; h_observed_flat := h_observed_flat h;
     h_yhatdf := h_yhatdf h; h_fitdf := h_fitdf h; h_poptdf := h_poptdf h;
     h_wtsDF := h_wtsDF h; h_ssdDF := h_ssdDF h;
     h_cond_wts := h_cond_wts h; h_flat_wts := h_flat_wts h |}.

(** Modelled from the spec: [optimize.Optimizer] is outside src.  The
    specification makes it a collaborator that is handed the parameter
    stores and re-reads them after every explicit update; the embedding
    keeps the stores it was last handed. *)
Record Optimizer := {
  o_fitparams : gmap string fval;
  o_basinparams : gmap string fval;
  o_inits : fval;
}.

(** ** The model object *)

(** The attributes of a [RADDCore] instance that the embedded methods read
    or assign.  An attribute tested with [hasattr] is an [option]; the
    others are assigned by [__init__] and [set_conditions] before any
    embedded statement reads them.  [self.sim] aliases [self.opt.sim] and
    has no field of its own. *)
Record Model := {
  kind : string;
  fit_on : string;
  ssd_method : fval;
  weighted : bool;
  quantiles : fval;
  learn : bool;
  ssdelay : bool;
  data : DataFrame;
  tb : float64;
  idx : list cell;
  nidx : Z;
  inits : fval;
  depends_on : dict dep;
  conds : list string;
  nconds : Z;
  is_flat : bool;
  clmap : gmap string (list string);
  cond_matrix : list Z;
  nlevels : Z;
  groups : list string;
  pcmap : gmap string (list string);
  model_id : string;
  handler : option Handler;
  observedDF : Frame;
  observedErr : Frame;
  observed : list ndarray;
  observed_flat : list ndarray;
  yhatdf : Frame;
  fitdf : Frame;
  poptdf : Frame;
  wtsDF : Frame;
  ssdDF : option Frame;
  cond_wts : list ndarray;
  flat_wts : list ndarray;
  ssd : option matrix;
  fitparams : option (gmap string fval);
  basinparams : option (gmap string fval);
  opt : option Optimizer;
}.

(** Attribute assignment [self.f = v], one function per assigned attribute. *)
Definition with_quantiles (v : fval) (m : Model) : Model :=
  {| kind := kind m; fit_on := fit_on m; ssd_method := ssd_method m;
     weighted := weighted m; quantiles := v; learn := learn m;
     ssdelay := ssdelay m; data := data m; tb := tb m; idx := idx m;
     nidx := nidx m; inits := inits m; depends_on := depends_on m;
     conds := conds m; nconds := nconds m; is_flat := is_flat m;
     clmap := clmap m; cond_matrix := cond_matrix m; nlevels := nlevels m;
     groups := groups m; pcmap := pcmap m; model_id := model_id m;
     handler := handler m; observedDF := observedDF m;
     observedErr := observedErr m; observed := observed m;
     observed_flat := observed_flat m; yhatdf := yhatdf m; fitdf := fitdf m;
     poptdf := poptdf m; wtsDF := wtsDF m; ssdDF := ssdDF m;
     cond_wts := cond_wts m; flat_wts := flat_wts m; ssd := ssd m;
     fitparams := fitparams m; basinparams := basinparams m; opt := opt m |}.
Definition with_data (v : DataFrame) (m : Model) : Model :=
  {| kind := kind m; fit_on := fit_on m; ssd_method := ssd_method m;
     weighted := weighted m; quantiles := quantiles m; learn := learn m;
     ssdelay := ssdelay m; data := v; tb := tb m; idx := idx m;
     nidx := nidx m; inits := inits m; depends_on := depends_on m;
     conds := conds m; nconds := nconds m; is_flat := is_flat m;
     clmap := clmap m; cond_matrix := cond_matrix m; nlevels := nlevels m;
     groups := groups m; pcmap := pcmap m; model_id := model_id m;
     handler := handler m; observedDF := observedDF m;
     observedErr := observedErr m; observed := observed m;
     observed_flat := observed_flat m; yhatdf := yhatdf m; fitdf := fitdf m;
     poptdf := poptdf m; wtsDF := wtsDF m; ssdDF := ssdDF m;
     cond_wts := cond_wts m; flat_wts := flat_wts m; ssd := ssd m;
     fitparams := fitparams m; basinparams := basinparams m; opt := opt m |}.
Definition with_inits (v : fval) (m : Model) : Model :=
  {| kind := kind m; fit_on := fit_on m; ssd_method := ssd_method m;
     weighted := weighted m; quantiles := quantiles m; learn := learn m;
     ssdelay := ssdelay m; data := data m; tb := tb m; idx := idx m;
     nidx := nidx m; inits := v; depends_on := depends_on m;
     conds := conds m; nconds := nconds m; is_flat := is_flat m;
     clmap := clmap m; cond_matrix := cond_matrix m; nlevels := nlevels m;
     groups := groups m; pcmap := pcmap m; model_id := model_id m;
     handler := handler m; observedDF := observedDF m;
     observedErr := observedErr m; observed := observed m;
     observed_flat := observed_flat m; yhatdf := yhatdf m; fitdf := fitdf m;
     poptdf := poptdf m; wtsDF := wtsDF m; ssdDF := ssdDF m;
     cond_wts := cond_wts m; flat_wts := flat_wts m; ssd := ssd m;
     fitparams := fitparams m; basinparams := basinparams m; opt := opt m |}.
Definition with_depends_on (v : dict dep) (m : Model) : Model :=
  {| kind := kind m; fit_on := fit_on m; ssd_method := ssd_method m;
     weighted := weighted m; quantiles := quantiles m; learn := learn m;
     ssdelay := ssdelay m; data := data m; tb := tb m; idx := idx m;
     nidx := nidx m; inits := inits m; depends_on := v; conds := conds m;
     nconds := nconds m; is_flat := is_flat m; clmap := clmap m;
     cond_matrix := cond_matrix m; nlevels := nlevels m; groups := groups m;
     pcmap := pcmap m; model_id := model_id m; handler := handler m;
     observedDF := observedDF m; observedErr := observedErr m;
     observed := observed m; observed_flat := observed_flat m;
     yhatdf := yhatdf m; fitdf := fitdf m; poptdf := poptdf m;
     wtsDF := wtsDF m; ssdDF := ssdDF m; cond_wts := cond_wts m;
     flat_wts := flat_wts m; ssd := ssd m; fitparams := fitparams m;
     basinparams := basinparams m; opt := opt m |}.
Definition with_conds (v : list string) (m : Model) : Model :=
  {| kind := kind m; fit_on := fit_on m; ssd_method := ssd_method m;
     weighted := weighted m; quantiles := quantiles m; learn := learn m;
     ssdelay := ssdelay m; data := data m; tb := tb m; idx := idx m;
     nidx := nidx m; inits := inits m; depends_on := depends_on m;
     conds := v; nconds := nconds m; is_flat := is_flat m; clmap := clmap m;
     cond_matrix := cond_matrix m; nlevels := nlevels m; groups := groups m;
     pcmap := pcmap m; model_id := model_id m; handler := handler m;
     observedDF := observedDF m; observedErr := observedErr m;
     observed := observed m; observed_flat := observed_flat m;
     yhatdf := yhatdf m; fitdf := fitdf m; poptdf := poptdf m;
     wtsDF := wtsDF m; ssdDF := ssdDF m; cond_wts := cond_wts m;
     flat_wts := flat_wts m; ssd := ssd m; fitparams := fitparams m;
     basinparams := basinparams m; opt := opt m |}.
Definition with_nconds (v : Z) (m : Model) : Model :=
  {| kind := kind m; fit_on := fit_on m; ssd_method := ssd_method m;
     weighted := weighted m; quantiles := quantiles m; learn := learn m;
     ssdelay := ssdelay m; data := data m; tb := tb m; idx := idx m;
     nidx := nidx m; inits := inits m; depends_on := depends_on m;
     conds := conds m; nconds := v; is_flat := is_flat m; clmap := clmap m;
     cond_matrix := cond_matrix m; nlevels := nlevels m; groups := groups m;
     pcmap := pcmap m; model_id := model_id m; handler := handler m;
     observedDF := observedDF m; observedErr := observedErr m;
     observed := observed m; observed_flat := observed_flat m;
     yhatdf := yhatdf m; fitdf := fitdf m; poptdf := poptdf m;
     wtsDF := wtsDF m; ssdDF := ssdDF m; cond_wts := cond_wts m;
     flat_wts := flat_wts m; ssd := ssd m; fitparams := fitparams m;
     basinparams := basinparams m; opt := opt m |}.
Definition with_is_flat (v : bool) (m : Model) : Model :=
  {| kind := kind m; fit_on := fit_on m; ssd_method := ssd_method m;
     weighted := weighted m; quantiles := quantiles m; learn := learn m;
     ssdelay := ssdelay m; data := data m; tb := tb m; idx := idx m;
     nidx := nidx m; inits := inits m; depends_on := depends_on m;
     conds := conds m; nconds := nconds m; is_flat := v; clmap := clmap m;
     cond_matrix := cond_matrix m; nlevels := nlevels m; groups := groups m;
     pcmap := pcmap m; model_id := model_id m; handler := handler m;
     observedDF := observedDF m; observedErr := observedErr m;
     observed := observed m; observed_flat := observed_flat m;
     yhatdf := yhatdf m; fitdf := fitdf m; poptdf := poptdf m;
     wtsDF := wtsDF m; ssdDF := ssdDF m; cond_wts := cond_wts m;
     flat_wts := flat_wts m; ssd := ssd m; fitparams := fitparams m;
     basinparams := basinparams m; opt := opt m |}.
Definition with_clmap (v : gmap string (list string)) (m : Model) : Model :=
  {| kind := kind m; fit_on := fit_on m; ssd_method := ssd_method m;
     weighted := weighted m; quantiles := quantiles m; learn := learn m;
     ssdelay := ssdelay m; data := data m; tb := tb m; idx := idx m;
     nidx := nidx m; inits := inits m; depends_on := depends_on m;
     conds := conds m; nconds := nconds m; is_flat := is_flat m; clmap := v;
     cond_matrix := cond_matrix m; nlevels := nlevels m; groups := groups m;
     pcmap := pcmap m; model_id := model_id m; handler := handler m;
     observedDF := observedDF m; observedErr := observedErr m;
     observed := observed m; observed_flat := observed_flat m;
     yhatdf := yhatdf m; fitdf := fitdf m; poptdf := poptdf m;
     wtsDF := wtsDF m; ssdDF := ssdDF m; cond_wts := cond_wts m;
     flat_wts := flat_wts m; ssd := ssd m; fitparams := fitparams m;
     basinparams := basinparams m; opt := opt m |}.
Definition with_cond_matrix (v : list Z) (m : Model) : Model :=
  {| kind := kind m; fit_on := fit_on m; ssd_method := ssd_method m;
     weighted := weighted m; quantiles := quantiles m; learn := learn m;
     ssdelay := ssdelay m; data := data m; tb := tb m; idx := idx m;
     nidx := nidx m; inits := inits m; depends_on := depends_on m;
     conds := conds m; nconds := nconds m; is_flat := is_flat m;
     clmap := clmap m; cond_matrix := v; nlevels := nlevels m;
     groups := groups m; pcmap := pcmap m; model_id := model_id m;
     handler := handler m; observedDF := observedDF m;
     observedErr := observedErr m; observed := observed m;
     observed_flat := observed_flat m; yhatdf := yhatdf m; fitdf := fitdf m;
     poptdf := poptdf m; wtsDF := wtsDF m; ssdDF := ssdDF m;
     cond_wts := cond_wts m; flat_wts := flat_wts m; ssd := ssd m;
     fitparams := fitparams m; basinparams := basinparams m; opt := opt m |}.
Definition with_nlevels (v : Z) (m : Model) : Model :=
  {| kind := kind m; fit_on := fit_on m; ssd_method := ssd_method m;
     weighted := weighted m; quantiles := quantiles m; learn := learn m;
     ssdelay := ssdelay m; data := data m; tb := tb m; idx := idx m;
     nidx := nidx m; inits := inits m; depends_on := depends_on m;
     conds := conds m; nconds := nconds m; is_flat := is_flat m;
     clmap := clmap m; cond_matrix := cond_matrix m; nlevels := v;
     groups := groups m; pcmap := pcmap m; model_id := model_id m;
     handler := handler m; observedDF := observedDF m;
     observedErr := observedErr m; observed := observed m;
     observed_flat := observed_flat m; yhatdf := yhatdf m; fitdf := fitdf m;
     poptdf := poptdf m; wtsDF := wtsDF m; ssdDF := ssdDF m;
     cond_wts := cond_wts m; flat_wts := flat_wts m; ssd := ssd m;
     fitparams := fitparams m; basinparams := basinparams m; opt := opt m |}.
Definition with_groups (v : list string) (m : Model) : Model :=
  {| kind := kind m; fit_on := fit_on m; ssd_method := ssd_method m;
     weighted := weighted m; quantiles := quantiles m; learn := learn m;
     ssdelay := ssdelay m; data := data m; tb := tb m; idx := idx m;
     nidx := nidx m; inits := inits m; depends_on := depends_on m;
     conds := conds m; nconds := nconds m; is_flat := is_flat m;
     clmap := clmap m; cond_matrix := cond_matrix m; nlevels := nlevels m;
     groups := v; pcmap := pcmap m; model_id := model_id m;
     handler := handler m; observedDF := observedDF m;
     observedErr := observedErr m; observed := observed m;
     observed_flat := observed_flat m; yhatdf := yhatdf m; fitdf := fitdf m;
     poptdf := poptdf m; wtsDF := wtsDF m; ssdDF := ssdDF m;
     cond_wts := cond_wts m; flat_wts := flat_wts m; ssd := ssd m;
     fitparams := fitparams m; basinparams := basinparams m; opt := opt m |}.
Definition with_pcmap (v : gmap string (list string)) (m : Model) : Model :=
  {| kind := kind m; fit_on := fit_on m; ssd_method := ssd_method m;
     weighted := weighted m; quantiles := quantiles m; learn := learn m;
     ssdelay := ssdelay m; data := data m; tb := tb m; idx := idx m;
     nidx := nidx m; inits := inits m; depends_on := depends_on m;
     conds := conds m; nconds := nconds m; is_flat := is_flat m;
     clmap := clmap m; cond_matrix := cond_matrix m; nlevels := nlevels m;
     groups := groups m; pcmap := v; model_id := model_id m;
     handler := handler m; observedDF := observedDF m;
     observedErr := observedErr m; observed := observed m;
     observed_flat := observed_flat m; yhatdf := yhatdf m; fitdf := fitdf m;
     poptdf := poptdf m; wtsDF := wtsDF m; ssdDF := ssdDF m;
     cond_wts := cond_wts m; flat_wts := flat_wts m; ssd := ssd m;
     fitparams := fitparams m; basinparams := basinparams m; opt := opt m |}.
Definition with_model_id (v : string) (m : Model) : Model :=
  {| kind := kind m; fit_on := fit_on m; ssd_method := ssd_method m;
     weighted := weighted m; quantiles := quantiles m; learn := learn m;
     ssdelay := ssdelay m; data := data m; tb := tb m; idx := idx m;
     nidx := nidx m; inits := inits m; depends_on := depends_on m;
     conds := conds m; nconds := nconds m; is_flat := is_flat m;
     clmap := clmap m; cond_matrix := cond_matrix m; nlevels := nlevels m;
     groups := groups m; pcmap := pcmap m; model_id := v;
     handler := handler m; observedDF := observedDF m;
     observedErr := observedErr m; observed := observed m;
     observed_flat := observed_flat m; yhatdf := yhatdf m; fitdf := fitdf m;
     poptdf := poptdf m; wtsDF := wtsDF m; ssdDF := ssdDF m;
     cond_wts := cond_wts m; flat_wts := flat_wts m; ssd := ssd m;
     fitparams := fitparams m; basinparams := basinparams m; opt := opt m |}.
Definition with_handler (v : option Handler) (m : Model) : Model :=
  {| kind := kind m; fit_on := fit_on m; ssd_method := ssd_method m;
     weighted := weighted m; quantiles := quantiles m; learn := learn m;
     ssdelay := ssdelay m; data := data m; tb := tb m; idx := idx m;
     nidx := nidx m; inits := inits m; depends_on := depends_on m;
     conds := conds m; nconds := nconds m; is_flat := is_flat m;
     clmap := clmap m; cond_matrix := cond_matrix m; nlevels := nlevels m;
     groups := groups m; pcmap := pcmap m; model_id := model_id m;
     handler := v; observedDF := observedDF m; observedErr := observedErr m;
     observed := observed m; observed_flat := observed_flat m;
     yhatdf := yhatdf m; fitdf := fitdf m; poptdf := poptdf m;
     wtsDF := wtsDF m; ssdDF := ssdDF m; cond_wts := cond_wts m;
     flat_wts := flat_wts m; ssd := ssd m; fitparams := fitparams m;
     basinparams := basinparams m; opt := opt m |}.
Definition with_ssd (v : option matrix) (m : Model) : Model :=
  {| kind := kind m; fit_on := fit_on m; ssd_method := ssd_method m;
     weighted := weighted m; quantiles := quantiles m; learn := learn m;
     ssdelay := ssdelay m; data := data m; tb := tb m; idx := idx m;
     nidx := nidx m; inits := inits m; depends_on := depends_on m;
     conds := conds m; nconds := nconds m; is_flat := is_flat m;
     clmap := clmap m; cond_matrix := cond_matrix m; nlevels := nlevels m;
     groups := groups m; pcmap := pcmap m; model_id := model_id m;
     handler := handler m; observedDF := observedDF m;
     observedErr := observedErr m; observed := observed m;
     observed_flat := observed_flat m; yhatdf := yhatdf m; fitdf := fitdf m;
     poptdf := poptdf m; wtsDF := wtsDF m; ssdDF := ssdDF m;
     cond_wts := cond_wts m; flat_wts := flat_wts m; ssd := v;
     fitparams := fitparams m; basinparams := basinparams m; opt := opt m |}.
Definition with_fitparams (v : option (gmap string fval)) (m : Model) : Model :=
  {| kind := kind m; fit_on := fit_on m; ssd_method := ssd_method m;
     weighted := weighted m; quantiles := quantiles m; learn := learn m;
     ssdelay := ssdelay m; data := data m; tb := tb m; idx := idx m;
     nidx := nidx m; inits := inits m; depends_on := depends_on m;
     conds := conds m; nconds := nconds m; is_flat := is_flat m;
     clmap := clmap m; cond_matrix := cond_matrix m; nlevels := nlevels m;
     groups := groups m; pcmap := pcmap m; model_id := model_id m;
     handler := handler m; observedDF := observedDF m;
     observedErr := observedErr m; observed := observed m;
     observed_flat := observed_flat m; yhatdf := yhatdf m; fitdf := fitdf m;
     poptdf := poptdf m; wtsDF := wtsDF m; ssdDF := ssdDF m;
     cond_wts := cond_wts m; flat_wts := flat_wts m; ssd := ssd m;
     fitparams := v; basinparams := basinparams m; opt := opt m |}.
Definition with_basinparams (v : option (gmap string fval)) (m : Model) : Model :=
  {| kind := kind m; fit_on := fit_on m; ssd_method := ssd_method m;
     weighted := weighted m; quantiles := quantiles m; learn := learn m;
     ssdelay := ssdelay m; data := data m; tb := tb m; idx := idx m;
     nidx := nidx m; inits := inits m; depends_on := depends_on m;
     conds := conds m; nconds := nconds m; is_flat := is_flat m;
     clmap := clmap m; cond_matrix := cond_matrix m; nlevels := nlevels m;
     groups := groups m; pcmap := pcmap m; model_id := model_id m;
     handler := handler m; observedDF := observedDF m;
     observedErr := observedErr m; observed := observed m;
     observed_flat := observed_flat m; yhatdf := yhatdf m; fitdf := fitdf m;
     poptdf := poptdf m; wtsDF := wtsDF m; ssdDF := ssdDF m;
     cond_wts := cond_wts m; flat_wts := flat_wts m; ssd := ssd m;
     fitparams := fitparams m; basinparams := v; opt := opt m |}.
Definition with_opt (v : option Optimizer) (m : Model) : Model :=
  {| kind := kind m; fit_on := fit_on m; ssd_method := ssd_method m;
     weighted := weighted m; quantiles := quantiles m; learn := learn m;
     ssdelay := ssdelay m; data := data m; tb := tb m; idx := idx m;
     nidx := nidx m; inits := inits m; depends_on := depends_on m;
     conds := conds m; nconds := nconds m; is_flat := is_flat m;
     clmap := clmap m; cond_matrix := cond_matrix m; nlevels := nlevels m;
     groups := groups m; pcmap := pcmap m; model_id := model_id m;
     handler := handler m; observedDF := observedDF m;
     observedErr := observedErr m; observed := observed m;
     observed_flat := observed_flat m; yhatdf := yhatdf m; fitdf := fitdf m;
     poptdf := poptdf m; wtsDF := wtsDF m; ssdDF := ssdDF m;
     cond_wts := cond_wts m; flat_wts := flat_wts m; ssd := ssd m;
     fitparams := fitparams m; basinparams := basinparams m; opt := v |}.

(** Lines 90-115 of [__make_dataframes__]: the tables, vectors and weights
    of the handler become attributes of the model; [ssdDF] only when the
    handler has one ([try] ... [except Exception: pass]). *)
Definition with_frames (h : Handler) (m : Model) : Model :=
  {| kind := kind m; fit_on := fit_on m; ssd_method := ssd_method m;
     weighted := weighted m; quantiles := quantiles m; learn := learn m;
     ssdelay := ssdelay m; data := data m; tb := tb m; idx := idx m;
     nidx := nidx m; inits := inits m; depends_on := depends_on m;
     conds := conds m; nconds := nconds m; is_flat := is_flat m;
     clmap := clmap m; cond_matrix := cond_matrix m; nlevels := nlevels m;
     groups := groups m; pcmap := pcmap m; model_id := model_id m;
     handler := handler m; observedDF := h_observedDF h;
     observedErr := h_observedErr h; observed := h_observed h;
     observed_flat := h_observed_flat h; yhatdf := h_yhatdf h;
     fitdf := h_fitdf h; poptdf := h_poptdf h; wtsDF := h_wtsDF h;
     ssdDF := match h_ssdDF h with Some s => Some s | None => ssdDF m end;
     cond_wts := h_cond_wts h; flat_wts := h_flat_wts h; ssd := ssd m;
     fitparams := fitparams m; basinparams := basinparams m; opt := opt m |}.

(** ** Methods as state transformers *)

(** A method call: it maps the object to the object it leaves behind and
    either a returned value or the exception raised. *)
Definition M (A : Type) : Type := Model → Model * res A.

Global Instance M_ret : MRet M := λ A a m, (m, Ok a).
Global Instance M_bind : MBind M := λ A B k c m,
  match c m with
  | (m', Ok a) => k a m'
  | (m', Raise e) => (m', Raise e)
  end.

Definition attr {A} (f : Model → A) : M A := λ m, (m, Ok (f m)).
Definition assign (f : Model → Model) : M unit := λ m, (f m, Ok tt).
Definition lift {A} (r : res A) : M A := λ m, (m, r).
Definition raise {A} (e : exn) : M A := lift (Raise e).
Definition when (b : bool) (c : M unit) : M unit := if b then c else mret tt.

(** [for x in xs: body(x)] *)
Fixpoint for_each {A} (xs : list A) (body : A → M unit) : M unit :=
  match xs with
  | [] => mret tt
  | x :: r => body x;; for_each r body
  end.

(** An attribute that may be missing. *)
Definition get_attr {A} (f : Model → option A) : M A := λ m,
  match f m with
  | Some a => (m, Ok a)
  | None => (m, Raise AttributeError)
  end.

(** ** Reading Python values as numbers *)

Definition float_gtb (x : float64) (k : Z) : bool :=
  match x with
  | Fnan => false
  | Finf neg => negb neg
  | Ffin m e => if 0 <=? e then k <? m * 2 ^ e else k * 2 ^ (- e) <? m
  end.

Definition float_eqb (x : float64) (k : Z) : bool :=
  match x with
  | Ffin m e => if 0 <=? e then m * 2 ^ e =? k else m =? k * 2 ^ (- e)
  | _ => false
  end.

(** The integer behind a value usable as an index: [int] or [bool]. *)
Definition as_int (v : fval) : option Z :=
  match v with
  | VInt z | VCell (CInt z) => Some z
  | VBool b => Some (Z.b2z b)
  | _ => None
  end.

(** [v > k] for an integer literal [k]; values that are not scalars-with-
    an-order raise. *)
Definition py_gt (v : fval) (k : Z) : res bool :=
  match as_int v, v with
  | Some z, _ => Ok (k <? z)
  | None, VFloat x => Ok (float_gtb x k)
  | None, (VVec _ | VArr _) => Raise ValueError
  | None, _ => Raise TypeError
  end.

(** [v == k] for an integer literal [k]. *)
Definition py_eq (v : fval) (k : Z) : res bool :=
  match as_int v, v with
  | Some z, _ => Ok (z =? k)
  | None, VFloat x => Ok (float_eqb x k)
  | None, (VVec _ | VArr _) => Raise ValueError
  | None, _ => Ok false
  end.

(** [l[i]] where [i] is a Python value. *)
Definition py_item {A} (l : list A) (i : fval) : res A :=
  match as_int i with
  | Some z => py_index l z
  | None => Raise TypeError
  end.

(** [int(.5 * v)] *)
Definition half_int (v : fval) : res Z :=
  match as_int v, v with
  | Some z, _ => Binary64.int_half z
  | None, VFloat (Ffin m e) =>
      Ok (Z.sgn m * Binary64.trunc (Z.abs m, e - 1))
  | None, VFloat Fnan => Raise ValueError
  | None, VFloat (Finf _) => Raise OverflowError
  | None, _ => Raise TypeError
  end.

(** ** [fitparams]: a [pandas.Series] used as a record *)

(** [self.fitparams[key]] *)
Definition fp_item (key : string) : M fval :=
  fp ← get_attr fitparams;
  match fp !! key with
  | Some v => mret v
  | None => raise KeyError
  end.

(** [self.fitparams.key] *)
Definition fp_attr (key : string) : M fval :=
  fp ← get_attr fitparams;
  match fp !! key with
  | Some v => mret v
  | None => raise AttributeError
  end.

(** [self.fitparams[key] = v] *)
Definition fp_setitem (key : string) (v : fval) : M unit :=
  fp ← get_attr fitparams;
  assign (with_fitparams (Some (<[key := v]> fp))).

(** ** Collaborators outside src *)

(** The pandas and numpy operations on tables built by the data handler,
    the handler itself and the default initial values are not part of the
    sources; the embedded methods take them as an interface. *)
Class Collaborators := {
  (** [ssdDF.drop('idx', axis=1).groupby(conds).mean().values] *)
  average_ssd : Frame → list string → res matrix;
  (** [ssdDF[ssdDF['idx'] == idx].groupby(conds).mean().values[:,1:]] *)
  subject_ssd : Frame → cell → list string → res matrix;
  (** [np.mean] of one column of a matrix. *)
  np_mean : list float64 → float64;
  (** [DataHandler(self)] followed by [make_dataframes()]. *)
  DataHandler : Model → Handler;
  (** [theta.get_default_inits(kind, depends_on, learn, ssdelay)] *)
  get_default_inits : string → dict dep → bool → bool → fval;
}.

(** ** The embedded methods of [RADDCore] *)

Section Methods.
Context `{Collaborators}.

(** [RADDCore.update_data] *)
Definition update_data (nlevels : fval) : M unit :=
  i ← fp_item "ix";
  cond ← lift (py_gt nlevels 1);
  (if cond : bool then
     l ← attr observed; y ← lift (py_item l i);
     fp_setitem "y" (VArr y);;
     l ← attr cond_wts; w ← lift (py_item l i);
     fp_setitem "wts" (VArr w)
   else
     l ← attr observed_flat; y ← lift (py_item l i);
     fp_setitem "y" (VArr y);;
     l ← attr flat_wts; w ← lift (py_item l i);
     fp_setitem "wts" (VArr w));;
  fit ← attr fit_on;
  if decide (fit = "subjects") then
    l ← attr idx; s ← lift (py_item l i);
    fp_setitem "idx" (VStr (str s))
  else
    fp_setitem "idx" (VStr "avg").

(** [np.mean(ssd, axis=0, keepdims=True)] *)
Definition mean_axis0 (ssd : matrix) : matrix :=
  {| rows := [(λ j, np_mean (rows ssd ≫= (λ r, option_list (r !! j))))
                <$> seq 0 (ncols ssd)];
     ncols := ncols ssd |}.

(** [np.arange(nssd) * np.ones((r, c)).astype(np.int)] *)
Definition index_grid (r c : nat) : list (list Z) :=
  replicate r (seqZ 0 (Z.of_nat c)).

(** [RADDCore.__set_ssd_info__] *)
Definition set_ssd_info : M unit :=
  fit ← attr fit_on;
  ssd ← (if decide (fit = "average") then
           df ← get_attr ssdDF;
           cs ← attr conds;
           lift (average_ssd df cs)
         else
           l ← attr idx; i ← fp_item "ix"; subj ← lift (py_item l i);
           df ← get_attr ssdDF;
           cs ← attr conds;
           ssd ← lift (subject_ssd df subj cs);
           assign (with_ssd (Some ssd));;
           mret ssd);
  nl ← fp_attr "nlevels";
  flat ← lift (py_eq nl 1);
  let ssd := if flat : bool then mean_axis0 ssd else ssd in
  let n_ssd := Z.of_nat (ncols ssd) in
  ntrials ← fp_attr "ntrials";
  n_ss ← lift (half_int ntrials);
  per_ssd ← lift (Binary64.int_truediv n_ss n_ssd);
  let grid := index_grid (length (rows ssd)) (ncols ssd) in
  fp_setitem "ssd_info"
    (VSsdInfo {| ssd_matrix := ssd; nssd := n_ssd; nss := n_ss;
                 nss_per_ssd := per_ssd; ssd_ix := grid |}).

(** [RADDCore.__format_pcmap__] *)
Definition format_pcmap : M unit :=
  d ← attr depends_on;
  cl ← attr clmap;
  pcmap ← lift (pcmap_loop cl d ∅);
  assign (with_pcmap pcmap);;
  h ← attr handler;
  match h with
  | Some h => assign (with_handler (Some (handler_set_pcmap pcmap h)))
  | None => mret tt
  end.

(** [RADDCore.generate_model_id] *)
Definition generate_model_id (appendstr : option string) : M unit :=
  d ← attr depends_on;
  let parts := keys d in
  let parts := if decide ("all" ∈ parts) then ["flat"] else parts in
  k ← attr kind;
  let parts := k :: parts in
  fit ← attr fit_on;
  let tag := if decide (fit = "subjects") then "idx" else "avg" in
  let parts := parts ++ [tag] in
  let parts :=
    match appendstr with
    | Some s => parts ++ [s]
    | None => parts
    end in
  assign (with_model_id (join "_" parts));;
  fp ← attr fitparams;
  match fp with
  | Some _ => mid ← attr model_id; fp_setitem "model_id" (VStr mid)
  | None => mret tt
  end.

(** [RADDCore.__make_dataframes__]; the two [zip] iterators and the
    working directory are left out. *)
Definition make_dataframes : M unit :=
  h ← attr DataHandler;
  assign (with_handler (Some h));;
  assign (with_frames h).

(** [RADDCore.update_quantiles] *)
Definition update_quantiles : M unit :=
  q ← fp_attr "quantiles";
  assign (with_quantiles q);;
  make_dataframes;;
  l ← attr observed_flat; i ← fp_item "ix"; y ← lift (py_item l i);
  fp_setitem "y" (VArr y);;
  l ← attr flat_wts; i ← fp_item "ix"; w ← lift (py_item l i);
  fp_setitem "wts" (VArr w).

(** [self.opt.update(fitparams=..., inits=...)] and
    [self.opt.update(basinparams=...)] *)
Definition opt_update_fit (fp : gmap string fval) (i : fval) (o : Optimizer)
  : Optimizer :=
  {| o_fitparams := fp; o_basinparams := o_basinparams o; o_inits := i |}.
Definition opt_update_basin (bp : gmap string fval) (o : Optimizer)
  : Optimizer :=
  {| o_fitparams := o_fitparams o; o_basinparams := bp;
     o_inits := o_inits o |}.

(** The default record of [set_basinparams]. *)
Definition default_basinparams : gmap string fval :=
  list_to_map
    [("ninits", VInt 3); ("nsamples", VInt 1200); ("interval", VInt 10);
     ("T", VFloat (float_lit 5 100));
     ("stepsize", VFloat (float_lit 35 1000));
     ("niter", VInt 400); ("maxiter", VInt 400); ("nsuccess", VInt 100);
     ("polish_tol", VFloat (float_lit 1 (10 ^ 20)));
     ("tol", VFloat (float_lit 1 100));
     ("local_method", VStr "L-BFGS-B"); ("method", VStr "basin");
     ("init_sample_method", VStr "best"); ("popsize", VInt 15);
     ("recombination", VFloat (float_lit 7 10));
     ("progress", VBool true); ("disp", VBool false)].

(** [RADDCore.set_basinparams] *)
Definition set_basinparams (kwargs : dict fval) : M unit :=
  bp ← attr basinparams;
  match bp with
  | None => assign (with_basinparams (Some default_basinparams))
  | Some _ =>
      for_each kwargs (λ kw,
        bp ← get_attr basinparams;
        assign (with_basinparams (Some (<[kw.1 := kw.2]> bp))))
  end;;
  o ← attr opt;
  match o with
  | Some o =>
      bp ← get_attr basinparams;
      assign (with_opt (Some (opt_update_basin bp o)))
  | None => mret tt
  end.

(** The record built by the first call of [set_fitparams]. *)
Definition default_fitparams (m : Model) (h : Handler) (first : cell)
  : gmap string fval :=
  list_to_map
    [("ix", VInt 0); ("ntrials", VInt 20000);
     ("si", VFloat (float_lit 1 10)); ("dt", VFloat (float_lit 2 1000));
     ("tol", VFloat (float_lit 1 (10 ^ 30)));
     ("method", VStr "nelder"); ("maxfev", VInt 450); ("maxiter", VInt 450);
     ("kind", VStr (kind m)); ("clmap", VMap (clmap m));
     ("pcmap", VMap (pcmap m)); ("depends_on", VDeps (depends_on m));
     ("ssd_method", h_ssd_method h); ("quantiles", quantiles m);
     ("fit_on", VStr (fit_on m)); ("model_id", VStr (model_id m));
     ("learn", VBool (learn m)); ("inits", inits m); ("nlevels", VInt 1);
     ("nidx", VInt (nidx m)); ("idx", VCell first);
     ("tb", VFloat (tb m))].

(** [RADDCore.set_fitparams]; the two methods it calls back into are
    arguments, the knot is tied in [set_fitparams] below. *)
Definition set_fitparams_body
    (set_conditions : dict dep → fval → M unit) (prepare_fit : M unit)
    (force : option string) (kwargs : dict fval) : M unit :=
  fp ← attr fitparams;
  match fp with
  | None =>
      h ← get_attr handler;
      l ← attr idx; first ← lift (py_index l 0);
      fp ← attr (λ m, default_fitparams m h first);
      assign (with_fitparams (Some fp))
  | Some _ => for_each kwargs (λ kw, fp_setitem kw.1 kw.2)
  end;;
  when (bool_decide ("quantiles" ∈ keys kwargs)) update_quantiles;;
  when (bool_decide ("depends_on" ∈ keys kwargs))
    (reformat_dataframes ← attr is_flat;
     match dict_get kwargs "depends_on" with
     | Some (VDeps d) => set_conditions d VNone
     | _ => raise AttributeError
     end;;
     when reformat_dataframes prepare_fit);;
  (if decide (force = Some "cond") then
     nl ← attr nlevels; fp_setitem "nlevels" (VInt nl)
   else if decide (force = Some "flat") then
     fp_setitem "nlevels" (VInt 1)
   else mret tt);;
  nl ← fp_attr "nlevels";
  update_data nl;;
  sdf ← attr ssdDF;
  when (bool_decide (is_Some sdf)) set_ssd_info;;
  o ← attr opt;
  match o with
  | Some o =>
      fp ← get_attr fitparams; i ← fp_attr "inits";
      assign (with_opt (Some (opt_update_fit fp i o)))
  | None => mret tt
  end.

(** [RADDCore.set_conditions] *)
Definition set_conditions_body
    (set_fitparams : option string → dict fval → M unit)
    (depends : dict dep) (bwfactors : fval) : M unit :=
  df ← attr data;
  assign (with_depends_on depends);;
  d ← attr depends_on;
  hs ← lift (np_hstack (listvalues d));
  assign (with_conds (np_unique hs));;
  cs ← attr conds;
  assign (with_nconds (Z.of_nat (length cs)));;
  df ← (if decide ("flat" ∈ cs) then
          assign (with_is_flat true);;
          let df := df_set_scalar "flat" "flat" df in
          assign (with_data df);;
          mret df
        else
          assign (with_is_flat false);;
          mret df);
  clevels ← lift (res_map (λ c, col ← df_get df c;
                                mret (np_sort (col_unique col))) cs);
  let clevels := str_levels <$> clevels in
  assign (with_clmap (dict_of_zip cs clevels));;
  assign (with_cond_matrix ((λ lvls, Z.of_nat (length lvls)) <$> clevels));;
  cm ← attr cond_matrix;
  nl ← lift (last_item (cumprod cm));
  assign (with_nlevels nl);;
  assign (with_groups ("idx" :: cs));;
  format_pcmap;;
  sdf ← attr ssdDF;
  when (bool_decide (is_Some sdf)) set_ssd_info;;
  fp ← attr fitparams;
  match fp with
  | Some _ =>
      generate_model_id None;;
      nl ← attr nlevels; cl ← attr clmap; mid ← attr model_id;
      set_fitparams None
        [("nlevels", VInt nl); ("clmap", VMap cl); ("model_id", VStr mid)]
  | None => mret tt
  end.

(** [RADDCore.__prepare_fit__] *)
Definition prepare_fit_body
    (set_fitparams : option string → dict fval → M unit) : M unit :=
  i ← attr inits;
  match i with
  | VNone =>
      v ← attr (λ m, get_default_inits (kind m) (depends_on m) (learn m)
                        (ssdelay m));
      assign (with_inits v)
  | _ => mret tt
  end;;
  format_pcmap;;
  generate_model_id None;;
  make_dataframes;;
  set_fitparams None [];;
  set_basinparams [];;
  fp ← get_attr fitparams; bp ← get_attr basinparams; i ← attr inits;
  assign (with_opt (Some {| o_fitparams := fp; o_basinparams := bp;
                            o_inits := i |})).

(** The three methods call each other; [fuel] bounds the nesting of the
    calls, and a call that would nest deeper raises [RecursionError]. *)
Fixpoint set_fitparams (fuel : nat) (force : option string)
    (kwargs : dict fval) : M unit :=
  match fuel with
  | O => raise RecursionError
  | S f =>
      set_fitparams_body (set_conditions_body (set_fitparams f))
        (prepare_fit_body (set_fitparams f)) force kwargs
  end.

Definition set_conditions (fuel : nat) : dict dep → fval → M unit :=
  set_conditions_body (set_fitparams fuel).

Definition prepare_fit (fuel : nat) : M unit :=
  prepare_fit_body (set_fitparams fuel).

End Methods.

(** ** [radd.tools.utils] *)

Module Utils.

(** The names bound at module level of utils.py: its imports and its
    definitions. *)
Definition module_names : list string :=
  ["division"; "sys"; "listvalues"; "deepcopy"; "pd"; "np"; "plt"; "sns";
   "colors"; "messages"; "analyze"; "bootstrap_data"; "theta"; "display";
   "Latex"; "IntProgress"; "HTML"; "Box";
   "pandaify_results"; "PBinJ"; "BasinCallback"; "GradientCallback";
   "MyFloat"; "rwr"; "resample_data"; "extract_popt_fitinfo"; "params_io";
   "fits_io"].

(** The functions and constants of the [builtins] module (its exception
    classes, all named [...Error], [...Exception], [...Warning] and the
    like, are left out). *)
Definition builtin_names : list string :=
  ["abs"; "all"; "any"; "ascii"; "bin"; "bool"; "breakpoint"; "bytearray";
   "bytes"; "callable"; "chr"; "classmethod"; "compile"; "complex";
   "delattr"; "dict"; "dir"; "divmod"; "enumerate"; "eval"; "exec";
   "filter"; "float"; "format"; "frozenset"; "getattr"; "globals";
   "hasattr"; "hash"; "help"; "hex"; "id"; "input"; "int"; "isinstance";
   "issubclass"; "iter"; "len"; "list"; "locals"; "map"; "max";
   "memoryview"; "min"; "next"; "object"; "oct"; "open"; "ord"; "pow";
   "print"; "property"; "range"; "repr"; "reversed"; "round"; "set";
   "setattr"; "slice"; "sorted"; "staticmethod"; "str"; "sum"; "super";
   "tuple"; "type"; "vars"; "zip"; "True"; "False"; "None"; "Ellipsis";
   "NotImplemented"; "copyright"; "credits"; "license"; "exit"; "quit"].

(** What a name of the module or of [builtins] stands for. *)
Inductive pyobj :=
  | ModuleLevel (name : string)
  | Builtin (name : string).

(** Reading a name that the function body never assigns: module globals,
    then builtins, else [NameError]. *)
Definition load_global (name : string) : res pyobj :=
  if decide (name ∈ module_names) then Ok (ModuleLevel name)
  else if decide (name ∈ builtin_names) then Ok (Builtin name)
  else Raise NameError.

(** [list(o)] for a module, function or class: not iterable. *)
Definition py_list (o : pyobj) : res (list string) := Raise TypeError.

(** [dict(deepcopy(finfo))]: [finfo] is [None] (the default) or a
    mapping; a DataFrame is passed as the mapping of its columns. *)
Definition py_dict (finfo : option (dict fval)) : res (dict fval) :=
  match finfo with
  | Some d => Ok d
  | None => Raise TypeError
  end.

(** [finfo[k]] *)
Definition item (d : dict fval) (k : string) : res fval :=
  match dict_get d k with
  | Some v => Ok v
  | None => Raise KeyError
  end.

(** A value of the returned dictionary: an entry of [finfo], or the
    array built from several of them. *)
Inductive popt_val :=
  | Scalar (v : fval)
  | Vector (vs : list fval).

(** [for pkey in list(pcmap): popt[pkey] = np.array([finfo[pc] ...])] *)
Fixpoint vectorize (finfo : dict fval) (pcmap : dict (list string))
    (popt : dict popt_val) : res (dict popt_val) :=
  match pcmap with
  | [] => Ok popt
  | (pkey, names) :: r =>
      vs ← res_map (item finfo) names;
      vectorize finfo r (dict_set pkey (Vector vs) popt)
  end.

(** [extract_popt_fitinfo(finfo, plist, pcmap)] *)
Definition extract_popt_fitinfo (finfo : option (dict fval)) (plist : fval)
    (pcmap : option (dict (list string))) : res (dict popt_val) :=
  finfo ← py_dict finfo;
  inits ← load_global "inits";
  plist ← py_list inits;
  popt ← res_map (λ pkey, v ← item finfo pkey; mret (pkey, Scalar v)) plist;
  pcmap ← match pcmap with
          | Some d => Ok d
          | None => Raise TypeError
          end;
  popt ← vectorize finfo pcmap popt;
  mret popt.

End Utils.

(** ** A concrete configuration

    Stand-ins for the collaborators and the scenario of the specification:
    2 subjects x 2 conditions ("easy", "hard") x 100 trials each. *)

Module Demo.

(** One table row per (subject, level) unit, the delays as its floats. *)
Definition rows_of (f : Frame) : list (list float64) := (λ r, r.2) <$> records f.

Definition width (rs : list (list float64)) : nat :=
  match rs with
  | [] => 0
  | r :: _ => length r
  end.

Definition frame0 : Frame := {| labels := []; records := [] |}.

Definition vec (n : nat) : ndarray :=
  {| shape := [n]; items := replicate n (Ffin 0 0) |}.

(** One flat and one conditional vector per fitted unit: per subject when
    fitting subjects, a single one when fitting the average. *)
Definition handler_of (m : Model) : Handler :=
  let units := if decide (fit_on m = "subjects") then length (idx m) else 1%nat in
  let width := 10%nat in
  {| h_ssd_method := ssd_method m; h_pcmap := pcmap m;
     h_observedDF := frame0; h_observedErr := frame0;
     h_observed := replicate units (vec (width * Z.to_nat (nlevels m)));
     h_observed_flat := replicate units (vec width);
     h_yhatdf := frame0; h_fitdf := frame0; h_poptdf := frame0;
     h_wtsDF := frame0; h_ssdDF := None;
     h_cond_wts := replicate units (vec (width * Z.to_nat (nlevels m)));
     h_flat_wts := replicate units (vec width) |}.

Definition collaborators : Collaborators :=
  {| average_ssd f cs :=
       Ok {| rows := rows_of f; ncols := width (rows_of f) |};
     subject_ssd f subj cs :=
       let rs := (λ r, r.2) <$> filter (λ r, head r.1 = Some subj) (records f) in
       Ok {| rows := rs; ncols := width rs |};
     np_mean xs := default Fnan (head xs);
     DataHandler := handler_of;
     get_default_inits k d l s :=
       VInits [("a", float_lit 45 100); ("tr", float_lit 3 10);
               ("v", float_lit 1 1)] |}.

Definition trials : DataFrame :=
  {| nrows := 400;
     columns :=
       [("idx", IntCol (replicate 200 1 ++ replicate 200 2));
        ("condition",
         StrCol (replicate 100 "easy" ++ replicate 100 "hard"
                 ++ replicate 100 "easy" ++ replicate 100 "hard"));
        ("ttype", IntCol (replicate 400 1))] |}.

(** The attributes assigned by lines 26-44 of [__init__]; the attributes
    that [set_conditions] assigns start out empty. *)
Definition blank (fit : string) (df : DataFrame) (subjects : list cell)
  : Model :=
  {| kind := "xdpm"; fit_on := fit; ssd_method := VNone; weighted := true;
     quantiles := VVec ((λ k, float_lit k 10) <$> seqZ 1 9);
     learn := false; ssdelay := false; data := df;
     tb := float_lit 68 100; idx := subjects;
     nidx := Z.of_nat (length subjects); inits := VNone;
     depends_on := []; conds := []; nconds := 0; is_flat := false;
     clmap := ∅; cond_matrix := []; nlevels := 0; groups := [];
     pcmap := ∅; model_id := ""; handler := None;
     observedDF := frame0; observedErr := frame0; observed := [];
     observed_flat := []; yhatdf := frame0; fitdf := frame0;
     poptdf := frame0; wtsDF := frame0; ssdDF := None; cond_wts := [];
     flat_wts := []; ssd := None; fitparams := None; basinparams := None;
     opt := None |}.


Definition fresh : Model := blank "subjects" trials [CInt 1; CInt 2].




(** A table whose rows carry integer level codes in arbitrary order. *)
Definition coded : DataFrame :=
  {| nrows := 3;
     columns := [("idx", IntCol [1; 1; 1]); ("dose", IntCol [10; 2; 10])] |}.

(** Two trials and sixty-four two-level factors [f0] ... [f63]. *)
Definition factor_name (i : nat) : string := "f" +:+ pretty i.
Definition wide : DataFrame :=
  {| nrows := 2;
     columns := (λ i, (factor_name i, IntCol [0; 1])) <$> seq 0 64 |}.
Definition wide_depends : dict dep :=
  (λ i, ("p" +:+ pretty i, Single (factor_name i))) <$> seq 0 64.

End Demo.

(** ** Notions used in the statements *)

(** The factors a dependency specification refers to. *)
Definition factors (d : dict dep) : list string := listvalues d ≫= dep_factors.

(** A factor is available when it is a column of the table or the literal
    ["flat"], for which [set_conditions] makes a column. *)
Definition available (df : DataFrame) (c : string) : Prop :=
  c = "flat" ∨ c ∈ keys (columns df).

(** The table that [set_conditions] reads the levels from. *)
Definition table_for (cs : list string) (df : DataFrame) : DataFrame :=
  if decide ("flat" ∈ cs) then df_set_scalar "flat" "flat" df else df.

(** The values of a column, and the number of distinct ones. *)
Definition values (df : DataFrame) (c : string) : list cell :=
  match dict_get (columns df) c with
  | Some col => cells col
  | None => []
  end.


(** The order of the values of a column: integers by value, strings by
    code points. *)
Definition cell_le (a b : cell) : Prop :=
  match a, b with
  | CInt x, CInt y => x ≤ y
  | CStr s, CStr t => String.le s t
  | CInt _, CStr _ => True
  | CStr _, CInt _ => False
  end.

(** The sorted distinct values of a column of the table, and their string
    forms: the levels of the factor. *)
Definition sorted_column (df : DataFrame) (c : string) : column :=
  match dict_get (columns df) c with
  | Some col => np_sort (col_unique col)
  | None => StrCol []
  end.

Definition levels_of (df : DataFrame) (c : string) : list string :=
  str_levels (sorted_column df c).

(** The attributes that lines 262-277 of [set_conditions] assign when every
    factor is available. *)
Definition assign_conditions (d : dict dep) (m : Model) : Model :=
  let cs := np_unique (factors d) in
  let df := table_for cs (data m) in
  let lv := levels_of df <$> cs in
  let cm := (λ lvls, Z.of_nat (length lvls)) <$> lv in
  let m := with_nconds (Z.of_nat (length cs)) (with_conds cs (with_depends_on d m)) in
  let m := if decide ("flat" ∈ cs) then with_data df (with_is_flat true m)
           else with_is_flat false m in
  with_groups ("idx" :: cs)
    (with_nlevels (wrap64 (prodZ cm))
       (with_cond_matrix cm (with_clmap (dict_of_zip cs lv) m))).

(** The attributes that make up the condition set. *)
Definition condition_set (m : Model) :=
  (depends_on m, conds m, nconds m, is_flat m, clmap m, cond_matrix m,
   nlevels m, groups m, data m).

(** [keeps π c]: running [c] does not change the part [π] of the state,
    whether it returns or raises. *)
Definition keeps {X A} (π : Model → X) (c : M A) : Prop :=
  ∀ m, π (c m).1 = π m.

(** The parts of the state that the parameter stores do not reach. *)
Definition outside_stores (m : Model) :=
  (condition_set m, pcmap m, handler m, quantiles m, inits m, idx m,
   fit_on m, kind m,
   (observed m, observed_flat m, cond_wts m, flat_wts m, ssdDF m)).

(** Lines 280-285 of [set_conditions]: the stores are brought up to date. *)
Definition set_conditions_cascade `{Collaborators}
    (set_fitparams : option string → dict fval → M unit) : M unit :=
  sdf ← attr ssdDF;
  when (bool_decide (is_Some sdf)) set_ssd_info;;
  fp ← attr fitparams;
  match fp with
  | Some _ =>
      generate_model_id None;;
      nl ← attr nlevels; cl ← attr clmap; mid ← attr model_id;
      set_fitparams None
        [("nlevels", VInt nl); ("clmap", VMap cl); ("model_id", VStr mid)]
  | None => mret tt
  end.

(** Lines 279-285 of [set_conditions]: what runs once the condition set
    is assigned. *)
Definition set_conditions_tail `{Collaborators}
    (set_fitparams : option string → dict fval → M unit) : M unit :=
  format_pcmap;; set_conditions_cascade set_fitparams.

(** The level tags of one entry of [depends_on], given the levels of each
    factor: the levels of a single factor, or the cross-product of the
    levels of a list of factors, in the order of the list, joined by ["_"]. *)
Definition tags_of (lv : string → list string) (dp : dep) : list string :=
  match dp with
  | Single c => lv c
  | Multi cs => (λ t, join "_" t) <$> product (lv <$> cs)
  end.


(** ** Notions for the parameter store *)




(** Two objects that differ at most in their stores and in what the
    optimizer holds. *)
Definition agree (m1 m2 : Model) : Prop :=
  outside_stores m1 = outside_stores m2 ∧
  bool_decide (is_Some (opt m1)) = bool_decide (is_Some (opt m2)).




(** * Properties *)

(** ** Sequences *)

Section Sequences.
Context `{EqDecision A}.
Implicit Types xs seen : list A.

Lemma elem_of_unique_from seen xs x :
  x ∈ unique_from seen xs ↔ x ∈ xs ∧ x ∉ seen.
Proof.
  revert seen. induction xs as [|y xs IH]; intros seen; simpl.
  - set_solver.
  - destruct (decide (y ∈ seen)) as [Hy|Hy].
    + rewrite IH. set_solver.
    + rewrite elem_of_cons, IH. destruct (decide (x = y)); set_solver.
Qed.

Lemma NoDup_unique_from seen xs : NoDup (unique_from seen xs).
Proof.
  revert seen. induction xs as [|y xs IH]; intros seen; simpl.
  - constructor.
  - destruct (decide (y ∈ seen)); [apply IH|].
    constructor; [|apply IH].
    rewrite elem_of_unique_from. set_solver.
Qed.

Lemma elem_of_unique xs x : x ∈ unique xs ↔ x ∈ xs.
Proof. unfold unique. rewrite elem_of_unique_from. set_solver. Qed.

Lemma NoDup_unique xs : NoDup (unique xs).
Proof. apply NoDup_unique_from. Qed.

End Sequences.


Lemma merge_sort_singleton {A} (R : relation A) `{∀ x y, Decision (R x y)} (x : A) :
  merge_sort R [x] = [x].
Proof. reflexivity. Qed.

Lemma length_merge_sort {A} (R : relation A) `{∀ x y, Decision (R x y)} (l : list A) :
  length (merge_sort R l) = length l.
Proof. apply Permutation_length, merge_sort_Permutation. Qed.

(** ** Dictionaries *)

Lemma dict_get_Some_elem {V} (d : dict V) k v :
  dict_get d k = Some v → (k, v) ∈ d.
Proof.
  induction d as [|[k' v'] d IH]; simpl; [done|].
  destruct (decide (k = k')) as [->|]; [|set_solver].
  intros [= ->]. left.
Qed.

Lemma dict_get_None {V} (d : dict V) k :
  dict_get d k = None ↔ k ∉ keys d.
Proof.
  unfold keys. induction d as [|[k' v'] d IH]; simpl.
  - set_solver.
  - destruct (decide (k = k')) as [->|]; [set_solver|].
    rewrite IH. set_solver.
Qed.

Lemma dict_get_set {V} (d : dict V) k k' v :
  dict_get (dict_set k v d) k' = if decide (k' = k) then Some v else dict_get d k'.
Proof.
  induction d as [|[k0 v0] d IH]; simpl.
  - repeat case_decide; congruence.
  - destruct (decide (k = k0)) as [->|Hne]; simpl.
    + repeat case_decide; congruence.
    + rewrite IH. repeat case_decide; congruence.
Qed.

(** ** numpy integers *)


Lemma wrap64_mul_l a b : wrap64 (wrap64 a * b) = wrap64 (a * b).
Proof.
  unfold wrap64. f_equal.
  replace ((a + 2 ^ 63) mod 2 ^ 64 - 2 ^ 63) with
    ((a + 2 ^ 63) mod 2 ^ 64 + (-2 ^ 63)) by lia.
  rewrite Z.mul_add_distr_r.
  rewrite <- Z.add_assoc, Z.add_mod, Z.mul_mod by lia.
  rewrite Z.mod_mod by lia.
  rewrite <- Z.mul_mod, <- Z.add_mod by lia.
  f_equal. lia.
Qed.

Lemma cumprod_from_last acc xs :
  xs ≠ [] → last (cumprod_from acc xs) = Some (wrap64 (acc * prodZ xs)).
Proof.
  revert acc. induction xs as [|x xs IH]; intros acc Hne; [done|].
  destruct xs as [|y xs].
  - simpl. do 2 f_equal. lia.
  - change (cumprod_from acc (x :: y :: xs)) with
      (wrap64 (acc * x) :: cumprod_from (wrap64 (acc * x)) (y :: xs)).
    rewrite last_cons, IH by done.
    rewrite wrap64_mul_l. simpl. do 2 f_equal. lia.
Qed.

Lemma last_item_cumprod xs :
  xs ≠ [] → last_item (cumprod xs) = Ok (wrap64 (prodZ xs)).
Proof.
  intros Hne. unfold last_item, cumprod.
  rewrite cumprod_from_last by done. do 2 f_equal. lia.
Qed.

(** ** Running a method *)

Lemma res_map_Ok {A B} (f : A → res B) (g : A → B) xs :
  (∀ x, x ∈ xs → f x = Ok (g x)) → res_map f xs = Ok (g <$> xs).
Proof.
  induction xs as [|x xs IH]; intros Hall; simpl; [done|].
  rewrite Hall by left. simpl. rewrite IH; [done|].
  intros y Hy. apply Hall. by right.
Qed.

Lemma res_map_Raise {A B} (f : A → res B) e xs :
  (∀ x, x ∈ xs → f x = Raise e ∨ ∃ y, f x = Ok y) →
  (∃ x, x ∈ xs ∧ f x = Raise e) → res_map f xs = Raise e.
Proof.
  induction xs as [|x xs IH]; intros Hall [z [Hz Hfz]]; simpl.
  - by apply elem_of_nil in Hz.
  - assert (x ∈ x :: xs) as Hx by left.
    destruct (Hall x Hx) as [->|[y Hy]]; [done|]. rewrite Hy. simpl.
    rewrite IH; [done|intros; apply Hall; by right|].
    apply elem_of_cons in Hz as [->|Hz]; [congruence|eauto].
Qed.

Lemma elem_of_np_unique xs c : c ∈ np_unique xs ↔ c ∈ xs.
Proof.
  unfold np_unique. rewrite merge_sort_Permutation. apply elem_of_unique.
Qed.


Global Instance CInt_inj : Inj (=) (=) CInt.
Proof. by intros ?? [=]. Qed.

Global Instance CStr_inj : Inj (=) (=) CStr.
Proof. by intros ?? [=]. Qed.

Lemma dep_factors_in_factors (d : dict dep) p dp c :
  (p, dp) ∈ d → c ∈ dep_factors dp → c ∈ factors d.
Proof.
  intros Hin Hc. unfold factors, listvalues.
  apply list_elem_of_bind. exists dp. split; [done|].
  apply list_elem_of_fmap. by exists (p, dp).
Qed.

Lemma np_hstack_Ok (d : dict dep) : d ≠ [] → np_hstack (listvalues d) = Ok (factors d).
Proof. destruct d; [done|]. reflexivity. Qed.

Lemma df_get_table_for cs df c :
  c ≠ "flat" → df_get (table_for cs df) c = df_get df c.
Proof.
  intros Hc. unfold table_for. case_decide; [|done].
  unfold df_get, df_set_scalar. simpl. rewrite dict_get_set.
  by rewrite decide_False.
Qed.

Lemma df_get_flat cs df :
  "flat" ∈ cs →
  df_get (table_for cs df) "flat" = Ok (StrCol (replicate (nrows df) "flat")).
Proof.
  intros Hc. unfold table_for. rewrite decide_True by done.
  unfold df_get, df_set_scalar. simpl. rewrite dict_get_set.
  by rewrite decide_True.
Qed.

(** The pure steps stay folded while a method is run on a state. *)
Arguments np_hstack : simpl never.
Arguments np_unique : simpl never.
Arguments res_map : simpl never.
Arguments dict_of_zip : simpl never.
Arguments cumprod : simpl never.
Arguments last_item : simpl never.
Arguments str_levels : simpl never.
Arguments pcmap_loop : simpl never.
Arguments py_item : simpl never.
Arguments py_index : simpl never.
Arguments py_gt : simpl never.
Arguments py_eq : simpl never.
Arguments half_int : simpl never.
Arguments Binary64.int_truediv : simpl never.
Arguments Binary64.int_half : simpl never.
Arguments df_get : simpl never.
Arguments df_set_scalar : simpl never.
Arguments default_fitparams : simpl never.
Arguments default_basinparams : simpl never.
Arguments join : simpl never.
Arguments mean_axis0 : simpl never.
Arguments index_grid : simpl never.

Arguments assign_conditions : simpl never.
Arguments listvalues : simpl never.
Arguments keys : simpl never.
Arguments factors : simpl never.

Lemma run_bind {A B} (c : M A) (k : A → M B) (m : Model) :
  (c ≫= k) m =
  match c m with
  | (m', Ok a) => k a m'
  | (m', Raise e) => (m', Raise e)
  end.
Proof. reflexivity. Qed.

Lemma run_ret {A} (a : A) (m : Model) : (mret a : M A) m = (m, Ok a).
Proof. reflexivity. Qed.

(** Runs a method on a state up to the next step whose outcome is not
    determined. *)
Ltac run :=
  repeat (progress (rewrite ?run_bind, ?run_ret;
                    unfold attr, assign, lift, raise, when, get_attr; cbn)).

Section Conditions.
Context `{Collaborators}.
Implicit Types (m : Model) (d : dict dep).

(** An empty specification stops [set_conditions] at [np.hstack]. *)
Lemma set_conditions_empty fuel bw m :
  set_conditions fuel [] bw m = (with_depends_on [] m, Raise ValueError).
Proof. reflexivity. Qed.

(** A factor that is no column stops [set_conditions] at [data[c]]. *)
Lemma set_conditions_absent fuel d bw m c :
  c ∈ factors d → ¬ available (data m) c →
  (set_conditions fuel d bw m).2 = Raise KeyError.
Proof.
  intros Hc Hav.
  assert (d ≠ []) as Hd by (intros ->; by apply elem_of_nil in Hc).
  assert (c ≠ "flat") as Hflat by (intros ->; apply Hav; by left).
  assert (dict_get (columns (data m)) c = None) as Hget.
  { apply dict_get_None. intros ?. apply Hav. by right. }
  set (cs := np_unique (factors d)).
  assert (res_map (λ c0, df_get (table_for cs (data m)) c0 ≫=
            λ col, mret (np_sort (col_unique col))) cs = Raise KeyError) as Hmap.
  { apply res_map_Raise.
    - intros x _. destruct (df_get (table_for cs (data m)) x) as [col|e] eqn:E.
      + right. eauto.
      + left. unfold df_get in E. by destruct (dict_get _ x).
    - exists c. split; [by apply elem_of_np_unique|].
      rewrite df_get_table_for by done. unfold df_get. by rewrite Hget. }
  unfold set_conditions, set_conditions_body.
  run. rewrite (np_hstack_Ok d Hd). run. fold cs.
  unfold table_for in Hmap.
  destruct (decide ("flat" ∈ cs)); run; by rewrite Hmap.
Qed.

(** *** Attributes a method leaves alone *)

Lemma keeps_ret {X A} (π : Model → X) (a : A) : keeps π (mret a).
Proof. by intros m. Qed.

Lemma keeps_bind {X A B} (π : Model → X) (c : M A) (k : A → M B) :
  keeps π c → (∀ a, keeps π (k a)) → keeps π (c ≫= k).
Proof.
  intros Hc Hk m. rewrite run_bind. specialize (Hc m).
  destruct (c m) as [m' [a|e]]; simpl in *; [|done].
  by rewrite Hk.
Qed.

Lemma keeps_attr {X A} (π : Model → X) (f : Model → A) : keeps π (attr f).
Proof. by intros m. Qed.

Lemma keeps_get_attr {X A} (π : Model → X) (f : Model → option A) :
  keeps π (get_attr f).
Proof. intros m. unfold get_attr. by destruct (f m). Qed.

Lemma keeps_lift {X A} (π : Model → X) (r : res A) : keeps π (lift r).
Proof. by intros m. Qed.

Lemma keeps_raise {X A} (π : Model → X) e : keeps π (raise e : M A).
Proof. by intros m. Qed.

Lemma keeps_assign {X} (π : Model → X) (f : Model → Model) :
  (∀ m, π (f m) = π m) → keeps π (assign f).
Proof. intros Hf m. apply Hf. Qed.

Lemma keeps_when {X} (π : Model → X) b (c : M unit) :
  keeps π c → keeps π (when b c).
Proof. intros Hc. destruct b; [done|]. apply keeps_ret. Qed.

Lemma keeps_for_each {X A} (π : Model → X) (xs : list A) body :
  (∀ x, keeps π (body x)) → keeps π (for_each xs body).
Proof.
  intros Hb. induction xs as [|x xs IH]; simpl.
  - apply keeps_ret.
  - apply keeps_bind; [apply Hb|]. intros _. apply IH.
Qed.
End Conditions.

(** Decomposes a goal [keeps π c] along the structure of [c]; assignments
    are left to [reflexivity]. *)
Ltac keeps_step :=
  lazymatch goal with
  | |- keeps _ (mbind _ _) => apply keeps_bind; [|intros ?]
  | |- keeps _ (mret _) => apply keeps_ret
  | |- keeps _ (attr _) => apply keeps_attr
  | |- keeps _ (get_attr _) => apply keeps_get_attr
  | |- keeps _ (lift _) => apply keeps_lift
  | |- keeps _ (raise _) => apply keeps_raise
  | |- keeps _ (assign _) => apply keeps_assign; intros ?; reflexivity
  | |- keeps _ (when _ _) => apply keeps_when
  | |- keeps _ (for_each _ _) => apply keeps_for_each; intros ?
  | |- keeps _ (if ?b then _ else _) => destruct b
  | |- keeps _ (match ?o with Some _ => _ | None => _ end) => destruct o
  | |- keeps _ (match ?o with Ok _ => _ | Raise _ => _ end) => destruct o
  end.
Ltac keeps_tac := repeat keeps_step.

Lemma keeps_fp_item {X} (π : Model → X) key : keeps π (fp_item key).
Proof. unfold fp_item. keeps_tac. Qed.

Lemma keeps_fp_attr {X} (π : Model → X) key : keeps π (fp_attr key).
Proof. unfold fp_attr. keeps_tac. Qed.

Lemma keeps_fp_setitem key v : keeps outside_stores (fp_setitem key v).
Proof. unfold fp_setitem. keeps_tac. Qed.

Lemma keeps_weaken {X Y A} (π : Model → X) (ρ : X → Y) (c : M A) :
  keeps π c → keeps (ρ ∘ π) c.
Proof. intros Hc m. simpl. by rewrite Hc. Qed.

Ltac keeps_store_step :=
  lazymatch goal with
  | |- keeps _ (fp_item _) => apply keeps_fp_item
  | |- keeps _ (fp_attr _) => apply keeps_fp_attr
  | |- keeps _ (fp_setitem _ _) => apply keeps_fp_setitem
  | _ => keeps_step
  end.

Section Frames.
Context `{Collaborators}.

Lemma keeps_update_data nl : keeps outside_stores (update_data nl).
Proof. unfold update_data. repeat keeps_store_step. Qed.

Lemma keeps_set_ssd_info : keeps outside_stores set_ssd_info.
Proof. unfold set_ssd_info. repeat keeps_store_step. Qed.

Lemma keeps_generate_model_id a : keeps outside_stores (generate_model_id a).
Proof. unfold generate_model_id. repeat keeps_store_step. Qed.

Lemma keeps_format_pcmap : keeps condition_set format_pcmap.
Proof. unfold format_pcmap. keeps_tac. Qed.
End Frames.

Ltac keeps_method_step :=
  lazymatch goal with
  | |- keeps _ (update_data _) => apply keeps_update_data
  | |- keeps _ set_ssd_info => apply keeps_set_ssd_info
  | |- keeps _ (generate_model_id _) => apply keeps_generate_model_id
  | _ => keeps_store_step
  end.

Section StoreFrames.
Context `{Collaborators}.

(** A call of [set_fitparams] that overrides neither [quantiles] nor
    [depends_on] stays within the stores. *)
Lemma keeps_set_fitparams_body sc pf force kw :
  "quantiles" ∉ keys kw → "depends_on" ∉ keys kw →
  keeps outside_stores (set_fitparams_body sc pf force kw).
Proof.
  intros Hq Hd. unfold set_fitparams_body.
  rewrite (bool_decide_eq_false_2 _ Hq), (bool_decide_eq_false_2 _ Hd).
  cbn [when]. repeat keeps_method_step.
Qed.

Lemma keeps_set_fitparams fuel force kw :
  "quantiles" ∉ keys kw → "depends_on" ∉ keys kw →
  keeps outside_stores (set_fitparams fuel force kw).
Proof.
  intros Hq Hd. destruct fuel as [|f]; simpl.
  - apply keeps_raise.
  - by apply keeps_set_fitparams_body.
Qed.
End StoreFrames.

(** ** The condition set *)

Section ConditionSet.
Context `{Collaborators}.
Implicit Types (m : Model) (d : dict dep) (df : DataFrame).

Lemma available_column cs df c :
  c ∈ cs → available df c →
  ∃ col, dict_get (columns (table_for cs df)) c = Some col.
Proof.
  intros Hc Hav. destruct (decide (c = "flat")) as [->|Hne].
  - pose proof (df_get_flat cs df Hc) as Hget. unfold df_get in Hget.
    destruct (dict_get _ "flat"); [eauto|done].
  - destruct Hav as [->|Hin]; [done|].
    pose proof (df_get_table_for cs df c Hne) as Hget. unfold df_get in Hget.
    destruct (dict_get (columns df) c) eqn:E.
    + destruct (dict_get (columns (table_for cs df)) c); [eauto|done].
    + by apply dict_get_None in E.
Qed.

Lemma level_columns cs df :
  (∀ c, c ∈ cs → available df c) →
  res_map (λ c, df_get (table_for cs df) c ≫=
                λ col, mret (np_sort (col_unique col))) cs
  = Ok (sorted_column (table_for cs df) <$> cs).
Proof.
  intros Hav. apply res_map_Ok. intros c Hc.
  destruct (available_column cs df c Hc (Hav c Hc)) as [col Hcol].
  unfold df_get, sorted_column. by rewrite Hcol.
Qed.

(** With every factor available, [set_conditions] assigns the condition
    set and goes on to its tail. *)
Lemma set_conditions_reaches_tail sf d bw m :
  factors d ≠ [] → (∀ c, c ∈ factors d → available (data m) c) →
  set_conditions_body sf d bw m
  = set_conditions_tail sf (assign_conditions d m).
Proof.
  intros Hne Hav.
  assert (d ≠ []) as Hd by (by intros ->).
  assert (np_unique (factors d) ≠ []) as Hcs.
  { intros Hnil. destruct (factors d) as [|c l] eqn:E; [done|].
    assert (c ∈ np_unique (c :: l)) as Hc by (apply elem_of_np_unique; left).
    rewrite Hnil in Hc. by apply elem_of_nil in Hc. }
  set (cs := np_unique (factors d)) in *.
  assert (∀ c, c ∈ cs → available (data m) c) as Hav'.
  { intros c Hc. by apply Hav, elem_of_np_unique. }
  pose proof (level_columns cs (data m) Hav') as Hmap.
  unfold set_conditions_body, set_conditions_tail, set_conditions_cascade,
    assign_conditions.
  run. rewrite (np_hstack_Ok d Hd). run. fold cs.
  unfold table_for in *.
  destruct (decide ("flat" ∈ cs)); run; rewrite Hmap; run;
    rewrite last_item_cumprod, <- !list_fmap_compose
      by (rewrite <- !list_fmap_compose; by destruct cs);
    reflexivity.
Qed.

Lemma keeps_cascade fuel :
  keeps outside_stores (set_conditions_cascade (set_fitparams fuel)).
Proof.
  unfold set_conditions_cascade.
  repeat lazymatch goal with
         | |- keeps _ (set_fitparams _ _ _) =>
             apply keeps_set_fitparams;
             unfold keys; cbn; rewrite !not_elem_of_cons;
             split_and!; (done || apply not_elem_of_nil)
         | _ => keeps_method_step
         end.
Qed.

Lemma dict_of_zip_lookup (f : string → list string) ks k :
  dict_of_zip ks (f <$> ks) !! k = if decide (k ∈ ks) then Some (f k) else None.
Proof.
  unfold dict_of_zip.
  cut (∀ acc : gmap string (list string),
         foldl (λ g kv, <[kv.1 := kv.2]> g) acc (zip ks (f <$> ks)) !! k
         = if decide (k ∈ ks) then Some (f k) else acc !! k).
  { intros Hcut. rewrite Hcut. by rewrite lookup_empty. }
  induction ks as [|k0 ks IH]; intros acc.
  - simpl. destruct (decide (k ∈ [])) as [Hin|]; [|done].
    by apply elem_of_nil in Hin.
  - change (foldl (λ g kv, <[kv.1 := kv.2]> g) acc
              (zip (k0 :: ks) (f <$> k0 :: ks)))
      with (foldl (λ g kv, <[kv.1 := kv.2]> g) (<[k0 := f k0]> acc)
              (zip ks (f <$> ks))).
    rewrite IH. destruct (decide (k ∈ ks)) as [Hin|Hnin].
    + by rewrite decide_True by set_solver.
    + destruct (decide (k = k0)) as [->|Hne].
      * rewrite decide_True by set_solver. by rewrite lookup_insert_eq.
      * rewrite decide_False by set_solver. by rewrite lookup_insert_ne.
Qed.

(** *** The parameter-to-condition map *)

Lemma pcmap_loop_cons cl p dp items acc :
  pcmap_loop cl ((p, dp) :: items) acc
  = res_bind (level_tags cl dp) (λ clevels,
      pcmap_loop cl items (<[p := param_name p <$> clevels]> acc)).
Proof. reflexivity. Qed.

Lemma pcmap_loop_Ok cl items acc :
  (∀ p conds, (p, conds) ∈ items → ∃ tags, level_tags cl conds = Ok tags) →
  ∃ r, pcmap_loop cl items acc = Ok r.
Proof.
  revert acc. induction items as [|[p conds] items IH]; intros acc Hall.
  - by eexists.
  - destruct (Hall p conds) as [tags Htags]; [left|].
    rewrite pcmap_loop_cons, Htags. simpl. apply IH.
    intros q cq Hq. apply (Hall q cq). by right.
Qed.



Lemma clmap_assigned d m c :
  clmap (assign_conditions d m) !! c
  = if decide (c ∈ np_unique (factors d))
    then Some (levels_of (table_for (np_unique (factors d)) (data m)) c)
    else None.
Proof. unfold assign_conditions. cbn. apply dict_of_zip_lookup. Qed.

Lemma data_assigned d m :
  data (assign_conditions d m) = table_for (np_unique (factors d)) (data m).
Proof.
  unfold assign_conditions, table_for. cbn. by case_decide.
Qed.

Lemma depends_on_assigned d m : depends_on (assign_conditions d m) = d.
Proof. unfold assign_conditions. cbn. by case_decide. Qed.




Lemma handler_assigned d m : handler (assign_conditions d m) = handler m.
Proof. unfold assign_conditions. cbn. by case_decide. Qed.

Lemma level_tags_assigned d m dp :
  (∀ c, c ∈ dep_factors dp → c ∈ factors d) →
  level_tags (clmap (assign_conditions d m)) dp
  = Ok (tags_of (levels_of (data (assign_conditions d m))) dp).
Proof.
  intros Hin. rewrite data_assigned.
  assert (∀ c, c ∈ dep_factors dp →
            clmap_get (clmap (assign_conditions d m)) c
            = Ok (levels_of (table_for (np_unique (factors d)) (data m)) c))
    as Hget.
  { intros c Hc. unfold clmap_get. rewrite clmap_assigned.
    by rewrite decide_True by (by apply elem_of_np_unique, Hin). }
  destruct dp as [c|cs]; simpl.
  - apply Hget. simpl. left.
  - simpl in Hget. rewrite (res_map_Ok _ _ _ Hget). done.
Qed.

Lemma condition_set_with_handler h m :
  condition_set (with_handler h m) = condition_set m.
Proof. reflexivity. Qed.

Lemma condition_set_with_pcmap pc m :
  condition_set (with_pcmap pc m) = condition_set m.
Proof. reflexivity. Qed.

Lemma format_pcmap_run m pc :
  pcmap_loop (clmap m) (depends_on m) ∅ = Ok pc →
  ∃ m', format_pcmap m = (m', Ok tt) ∧ pcmap m' = pc ∧
        outside_stores m' = outside_stores (with_handler (handler m') (with_pcmap pc m)).
Proof.
  intros Hpc. unfold format_pcmap. run. rewrite Hpc. run.
  destruct (handler m) as [h|] eqn:Hh; run; rewrite ?Hh; run;
    eexists; (split; [reflexivity|]); split; reflexivity.
Qed.

(** What [set_conditions] leaves behind when every factor is available:
    the assigned condition set, and the map that the loop of
    [__format_pcmap__] builds from it. *)
Lemma set_conditions_outcome fuel d bw m :
  factors d ≠ [] → (∀ c, c ∈ factors d → available (data m) c) →
  let m' := (set_conditions fuel d bw m).1 in
  condition_set m' = condition_set (assign_conditions d m) ∧
  pcmap_loop (clmap (assign_conditions d m)) d ∅ = Ok (pcmap m').
Proof.
  intros Hne Hav m'. subst m'. unfold set_conditions.
  rewrite set_conditions_reaches_tail by done.
  unfold set_conditions_tail. rewrite run_bind.
  destruct (pcmap_loop_Ok (clmap (assign_conditions d m)) d ∅) as [pc Hpc].
  { intros p dp Hin. eexists. apply level_tags_assigned.
    intros c Hc. by eapply dep_factors_in_factors. }
  rewrite Hpc.
  pose proof (depends_on_assigned d m) as Hd.
  generalize dependent (assign_conditions d m). intros A Hpc Hd.
  destruct (format_pcmap_run A pc) as (m1 & -> & Hpcm & Hout);
    [by rewrite Hd|].
  pose proof (keeps_cascade fuel m1) as Hk.
  destruct (set_conditions_cascade (set_fitparams fuel) m1) as [m2 r].
  cbn [fst] in Hk |- *. rewrite <- Hk in Hout.
  assert (condition_set m2 = condition_set A ∧ pcmap m2 = pc) as [-> ->];
    [|done].
  unfold outside_stores in Hout.
  rewrite condition_set_with_handler, condition_set_with_pcmap in Hout.
  cbn in Hout. split; congruence.
Qed.

Lemma sorted_cells col :
  let lv := cells (np_sort (col_unique col)) in
  Sorted cell_le lv ∧ NoDup lv ∧ ∀ x, x ∈ lv ↔ x ∈ cells col.
Proof.
  destruct col as [xs|xs]; simpl; split_and!.
  - apply (Sorted_fmap _ Z.le); [done|]. apply (Sorted_merge_sort _).
  - apply (NoDup_fmap_2 _). rewrite merge_sort_Permutation. apply NoDup_unique.
  - intros x. rewrite !list_elem_of_fmap.
    setoid_rewrite merge_sort_Permutation. by setoid_rewrite elem_of_unique.
  - apply (Sorted_fmap _ String.le); [done|]. apply (Sorted_merge_sort _).
  - apply (NoDup_fmap_2 _). rewrite merge_sort_Permutation. apply NoDup_unique.
  - intros x. rewrite !list_elem_of_fmap.
    setoid_rewrite merge_sort_Permutation. by setoid_rewrite elem_of_unique.
Qed.




End ConditionSet.

Global Instance available_dec df c : Decision (available df c).
Proof. unfold available. apply _. Defined.



(** ** The claims about the condition set and the parameter map *)

Section ConditionClaims.
Context `{Collaborators}.
Implicit Types (m : Model) (d : dict dep).



(** C3 (amended): for every factor that [depends_on] refers to, the
    levels stored in [clmap] are the distinct values of its column,
    sorted ascending in the order of the values themselves (integers by
    value, strings by code points) and coerced to strings afterwards,
    which keeps that order. *)
Theorem levels_sorted_then_coerced fuel d bw m c :
  factors d ≠ [] → (∀ c, c ∈ factors d → available (data m) c) →
  c ∈ factors d →
  let m' := (set_conditions fuel d bw m).1 in
  ∃ lv, clmap m' !! c = Some (str <$> lv) ∧ Sorted cell_le lv ∧ NoDup lv ∧
        ∀ x, x ∈ lv ↔ x ∈ values (data m') c.
Proof.
  intros Hne Hav Hc m'.
  destruct (set_conditions_outcome fuel d bw m Hne Hav) as [Hcs _].
  cbv zeta in Hcs. fold m' in Hcs. clearbody m'.
  unfold condition_set in Hcs.
  assert (data m' = data (assign_conditions d m)) as -> by congruence.
  assert (clmap m' = clmap (assign_conditions d m)) as -> by congruence.
  rewrite clmap_assigned, data_assigned.
  set (cs := np_unique (factors d)).
  assert (c ∈ cs) as Hcs' by (by apply elem_of_np_unique).
  rewrite decide_True by done.
  destruct (available_column cs (data m) c Hcs' (Hav c Hc)) as [col Hcol].
  unfold levels_of, sorted_column, values, str_levels. rewrite Hcol.
  exists (cells (np_sort (col_unique col))).
  split; [done|]. apply sorted_cells.
Qed.

(** C5 (amended): when [depends_on] is empty, [set_conditions] raises the
    [ValueError] of [np.hstack]; when it refers to a factor that is
    neither a column of the table nor the literal ["flat"], it raises the
    [KeyError] of [data[c]].  In neither case does it return. *)
Theorem set_conditions_rejects fuel d bw m :
  d = [] ∨ (∃ c, c ∈ factors d ∧ ¬ available (data m) c) →
  (set_conditions fuel d bw m).2
  = Raise (if decide (d = []) then ValueError else KeyError).
Proof.
  intros [->|(c & Hc & Hav)].
  - by rewrite set_conditions_empty.
  - rewrite decide_False.
    + by eapply set_conditions_absent.
    + intros ->. by apply elem_of_nil in Hc.
Qed.
End ConditionClaims.

(** *** The claims at concrete configurations *)

(** Discharges [∀ c, c ∈ l → P c] for a concrete list [l] and a decidable
    [P] by evaluation. *)
Ltac by_evaluation := apply (bool_decide_unpack _); vm_compute; exact I.
Ltac for_all_elements := apply Forall_forall; by_evaluation.



(** C3, as stated, fails on integer codes: with the codes 10 and 2 the
    stored levels are ["2"; "10"], which is the order of the integers and
    not the ascending order of the strings. *)
Lemma levels_not_sorted_as_strings :
  let m' := (@set_conditions Demo.collaborators 2 [("v", Single "dose")] VNone
               (Demo.blank "average" Demo.coded [CInt 1])).1 in
  clmap m' !! "dose" = Some ["2"; "10"] ∧ ¬ Sorted String.le ["2"; "10"].
Proof.
  split; [by vm_compute|].
  intros Hs. apply Sorted_inv in Hs as [_ Hhd].
  apply HdRel_inv in Hhd. by vm_compute in Hhd.
Qed.

Lemma levels_sorted_then_coerced_coded :
  let d := [("v", Single "dose")] in
  let m := Demo.blank "average" Demo.coded [CInt 1] in
  let m' := (@set_conditions Demo.collaborators 2 d VNone m).1 in
  (factors d ≠ [] ∧ (∀ c, c ∈ factors d → available (data m) c) ∧
   "dose" ∈ factors d) ∧
  ∃ lv, clmap m' !! "dose" = Some (str <$> lv) ∧ Sorted cell_le lv ∧ NoDup lv ∧
        ∀ x, x ∈ lv ↔ x ∈ values (data m') "dose".
Proof.
  intros d m m'.
  assert (factors d ≠ []) as H1 by done.
  assert (∀ c, c ∈ factors d → available (data m) c) as H2 by for_all_elements.
  assert ("dose" ∈ factors d) as H3 by left.
  split; [done|].
  exact (@levels_sorted_then_coerced Demo.collaborators 2 d VNone m "dose"
           H1 H2 H3).
Defined.

(** C5, as stated, fails: an empty [depends_on] raises [ValueError], not
    the [ConfigurationError] of the specification. *)
Lemma empty_depends_on_not_ConfigurationError :
  (@set_conditions Demo.collaborators 2 [] VNone Demo.fresh).2
  ≠ Raise ConfigurationError.
Proof. by vm_compute. Qed.

Lemma set_conditions_rejects_unknown_factor :
  let d := [("v", Single "difficulty")] in
  (d = [] ∨ ∃ c, c ∈ factors d ∧ ¬ available (data Demo.fresh) c) ∧
  (@set_conditions Demo.collaborators 2 d VNone Demo.fresh).2 = Raise KeyError.
Proof.
  intros d.
  assert (d = [] ∨ ∃ c, c ∈ factors d ∧ ¬ available (data Demo.fresh) c) as H1.
  { right. exists "difficulty". split; [left|].
    by_evaluation. }
  split; [done|].
  exact (@set_conditions_rejects Demo.collaborators 2 d VNone Demo.fresh H1).
Defined.

(** ** The active index *)


Lemma py_index_in_range {A} (l : list A) i :
  - Z.of_nat (length l) ≤ i < Z.of_nat (length l) → ∃ x, py_index l i = Ok x.
Proof.
  intros Hi. unfold py_index.
  set (j := if i <? 0 then i + Z.of_nat (length l) else i).
  assert (0 ≤ j < Z.of_nat (length l)) as Hj.
  { subst j. destruct (i <? 0) eqn:Hneg;
      [apply Z.ltb_lt in Hneg | apply Z.ltb_ge in Hneg]; lia. }
  rewrite (proj2 (andb_true_iff _ _))
    by (split; [apply Z.leb_le | apply Z.ltb_lt]; lia).
  destruct (lookup_lt_is_Some_2 l (Z.to_nat j)) as [x Hx]; [lia|].
  rewrite Hx. eauto.
Qed.

Section ActiveIndex.
Context `{Collaborators}.


End ActiveIndex.

(** ** binary64 on integers of at most 53 bits *)

Module Binary64Facts.
Import Binary64.










End Binary64Facts.

(** ** Stop-signal delays *)

Section StopSignal.
Context `{Collaborators}.

Lemma ncols_mean_axis0 mat : ncols (mean_axis0 mat) = ncols mat.
Proof. reflexivity. Qed.

Lemma rows_mean_axis0 mat : length (rows (mean_axis0 mat)) = 1%nat.
Proof. reflexivity. Qed.

End StopSignal.

(** *** The active index and the delays at concrete configurations *)





(** ** [extract_popt_fitinfo] *)

(** C10 (amended): [extract_popt_fitinfo] never returns.  When [finfo] is a
    mapping, the call raises [NameError] at the read of [inits], a name
    that is neither a parameter, nor bound in the module, nor a builtin;
    when [finfo] is left at its default [None], the call raises
    [TypeError] one line earlier, at [dict(deepcopy(finfo))]. *)
Theorem extract_popt_fitinfo_raises finfo plist pcmap :
  Utils.extract_popt_fitinfo finfo plist pcmap
  = Raise (if finfo is Some _ then NameError else TypeError).
Proof. destruct finfo; reflexivity. Qed.

(** C10, as stated, fails for the default arguments: the exception is
    [TypeError], not [NameError]. *)
Lemma extract_popt_fitinfo_default_not_NameError :
  Utils.extract_popt_fitinfo None VNone None ≠ Raise NameError.
Proof. by vm_compute. Qed.

(** ** The parameter store *)






Global Instance agree_equiv : Equivalence agree.
Proof.
  unfold agree. split.
  - by intros m.
  - intros m1 m2 [? ?]. by split.
  - intros m1 m2 m3 [? ?] [? ?]. split; congruence.
Qed.

Section Uniform.
Context `{Collaborators}.













End Uniform.




Section UniformMethods.
Context `{Collaborators}.




End UniformMethods.

Section Idempotence.
Context `{Collaborators}.




End Idempotence.


